(** * Camera-trap image name extractor: a shallow embedding

    The development follows [camera_trap_image_name_extractor/__init__.py].
    Python [str] values are modelled as [string] (one [ascii] per code
    point, so the model covers file names in the ASCII range), [pathlib]
    paths as an anchor plus the list of their name components, the
    [DataFrame] as the list of its rows in index order, and the effects of
    [process_directory] (printing, [mkdir], writing the CSV file, reading
    the clock) as explicit passing of a [World]. *)

From Stdlib Require Import Strings.String Strings.Ascii Lists.List.
From Stdlib Require Import Arith.PeanoNat Bool.Bool Lia.
From Stdlib Require Import Sorting.Sorted Sorting.Permutation.
From Stdlib Require Import Numbers.DecimalString.
Import ListNotations.
Open Scope list_scope.
Open Scope string_scope.

Set Implicit Arguments.

(** ** Exceptions *)

(** A path is the parsed form [pathlib] keeps: the anchor ([""] for a
    relative path, ["/"] for an absolute one) and the name components
    after it.  Components are non-empty, hold no ['/'] and are never
    ["."]: [pathlib] removes those when it parses. *)
Record Path : Type := mkPath { anchor : string; names : list string }.

Inductive exn : Type :=
| ValueError_not_subpath (self other : Path)
| ValueError_unpack (got : nat)
| FileExistsError (p : Path)
| NotADirectoryError (p : Path)
| IsADirectoryError (p : Path).

Inductive result (A : Type) : Type :=
| Ok (a : A)
| Raise (e : exn).
Arguments Ok {A} a.
Arguments Raise {A} e.

Definition rbind {A B : Type} (m : result A) (k : A -> result B) : result B :=
  match m with
  | Ok a => k a
  | Raise e => Raise e
  end.

Notation "'let*' x ':=' m 'in' k" := (rbind m (fun x => k))
  (at level 10, x name, m at level 100, k at level 200).

(** ** Python [str] operations *)

Module Str.

(** [str.isspace] on the ASCII range: TAB, LF, VT, FF, CR, the four
    separators 0x1C-0x1F and the space. *)
Definition is_space (c : ascii) : bool :=
  let n := nat_of_ascii c in
  ((9 <=? n)%nat && (n <=? 13)%nat) || ((28 <=? n)%nat && (n <=? 32)%nat).

Definition flush (cur : string) : list string :=
  match cur with
  | EmptyString => []
  | _ => [cur]
  end.

(** [s.split()] without argument: the maximal runs of characters that
    are not whitespace, in order.  [cur] is the run being read. *)
Fixpoint split_from (cur s : string) : list string :=
  match s with
  | EmptyString => flush cur
  | String c s' =>
      if is_space c then (flush cur ++ split_from "" s')%list
      else split_from (cur ++ String c "") s'
  end.

Definition split (s : string) : list string := split_from "" s.

Definition lower_char (c : ascii) : ascii :=
  let n := nat_of_ascii c in
  if (65 <=? n)%nat && (n <=? 90)%nat then ascii_of_nat (n + 32) else c.

Fixpoint lower (s : string) : string :=
  match s with
  | EmptyString => EmptyString
  | String c s' => String (lower_char c) (lower s')
  end.

Definition startswith (s pre : string) : bool := String.prefix pre s.

(** [s.rfind('.')], with [None] for Python's [-1]. *)
Fixpoint rfind_dot (s : string) : option nat :=
  match s with
  | EmptyString => None
  | String c s' =>
      match rfind_dot s' with
      | Some i => Some (S i)
      | None => if Ascii.eqb c "."%char then Some 0 else None
      end
  end.

(** [x in xs] for a list of strings. *)
Definition mem (x : string) (xs : list string) : bool :=
  existsb (String.eqb x) xs.

(** [str(n)] for a non-negative integer. *)
Definition of_nat (n : nat) : string :=
  NilEmpty.string_of_uint (Nat.to_uint n).

Definition has_space (s : string) : bool :=
  existsb is_space (list_ascii_of_string s).

End Str.

(** ** [pathlib.PurePath] *)

Module Pathlib.

(** [p.parts]: the anchor, when there is one, then the names. *)
Definition parts (p : Path) : list string :=
  match anchor p with
  | EmptyString => names p
  | a => a :: names p
  end.

(** [p.name]: the last component, [''] when there is none. *)
Definition name (p : Path) : string := last (names p) "".

(** [p.parent]: the path without its last component; the anchor and
    the empty path are their own parents. *)
Definition parent (p : Path) : Path :=
  mkPath (anchor p) (removelast (names p)).

(** The split [pathlib] makes of a name at its last dot:
    [i = name.rfind('.')] and the suffix is [name[i:]] when
    [0 < i < len(name) - 1], empty otherwise. *)
Definition split_name (nm : string) : string * string :=
  match Str.rfind_dot nm with
  | Some i =>
      if (0 <? i)%nat && (i <? String.length nm - 1)%nat
      then (substring 0 i nm, substring i (String.length nm - i) nm)
      else (nm, "")
  | None => (nm, "")
  end.

Definition suffix (p : Path) : string := snd (split_name (name p)).
Definition stem (p : Path) : string := fst (split_name (name p)).

(** [p / q] for a relative [q]. *)
Definition joinpath (p q : Path) : Path :=
  mkPath (anchor p) (names p ++ names q)%list.

(** [str(p)]. *)
Definition str (p : Path) : string :=
  match names p with
  | [] => match anchor p with EmptyString => "." | a => a end
  | ns => anchor p ++ String.concat "/" ns
  end.

Fixpoint strip_prefix (pre l : list string) : option (list string) :=
  match pre, l with
  | [], _ => Some l
  | x :: pre', y :: l' => if String.eqb x y then strip_prefix pre' l' else None
  | _ :: _, [] => None
  end.

(** [p.relative_to(other)]: [other]'s parts must be a prefix of [p]'s;
    the result is the relative path of what is left. *)
Definition relative_to (p other : Path) : result Path :=
  if String.eqb (anchor p) (anchor other) then
    match strip_prefix (names other) (names p) with
    | Some rest => Ok (mkPath "" rest)
    | None => Raise (ValueError_not_subpath p other)
    end
  else Raise (ValueError_not_subpath p other).

Fixpoint names_eqb (l1 l2 : list string) : bool :=
  match l1, l2 with
  | [], [] => true
  | x :: l1', y :: l2' => String.eqb x y && names_eqb l1' l2'
  | _, _ => false
  end.

(** [p == q]: the same parts, compared as strings. *)
Definition eqb (p q : Path) : bool :=
  String.eqb (anchor p) (anchor q) && names_eqb (names p) (names q).

(** A path object defines neither [__bool__] nor [__len__], so it is
    true in a condition whatever it holds. *)
Definition truthy (p : Path) : bool := true.

End Pathlib.

(** [str(e)] for the exceptions of the model. *)
Definition str_exn (e : exn) : string :=
  match e with
  | ValueError_not_subpath p other =>
      "'" ++ Pathlib.str p ++ "' is not in the subpath of '"
          ++ Pathlib.str other ++ "'"
  | ValueError_unpack got =>
      "not enough values to unpack (expected 6, got " ++ Str.of_nat got ++ ")"
  | FileExistsError p => "[Errno 17] File exists: '" ++ Pathlib.str p ++ "'"
  | NotADirectoryError p => "[Errno 20] Not a directory: '" ++ Pathlib.str p ++ "'"
  | IsADirectoryError p => "[Errno 21] Is a directory: '" ++ Pathlib.str p ++ "'"
  end.

(** ** The path interpreter *)

(** [format_image_id]: the six-name unpacking of [name_parts[:6]] raises
    when the slice has another length, which [format_image_id_total]
    below shows never happens. *)
Definition format_image_id (file_path : Path) (camera_id : string)
  : result string :=
  let name_parts := Str.split (Pathlib.stem file_path) in
  if (6 <=? List.length name_parts)%nat then
    match firstn 6 name_parts with
    | [year; month; day; hour; minute; second] =>
        let formatted_date := year ++ "-" ++ month ++ "-" ++ day in
        let formatted_time := hour ++ "-" ++ minute ++ "-" ++ second in
        Ok (camera_id ++ "_" ++ formatted_date ++ "_" ++ formatted_time ++ "_JPEG")
    | sl => Raise (ValueError_unpack (List.length sl))
    end
  else Ok (Pathlib.name file_path).

(** [extract_camera_number]: the body of the [try], then the handler. *)
Definition extract_camera_number_try (file_path : Path) : result string :=
  let camera_dir := Pathlib.parent (Pathlib.parent (Pathlib.parent file_path)) in
  Ok (Pathlib.name camera_dir).

Definition extract_camera_number (file_path : Path) : string :=
  match extract_camera_number_try file_path with
  | Ok camera => camera
  | Raise _ => "unknown"
  end.

(** ** The file system, the table and the world *)

Inductive Kind : Type := RegularFile | Directory | Special.

Definition Entry : Type := (Path * Kind)%type.

(** The file system is the list of its entries under their lexical
    paths, in the order in which a traversal meets them. *)
Definition FileSystem : Type := list Entry.

Record Row : Type := mkRow {
  image_id : string;
  location : string;
  camera : string;
  species : string;
  count : string
}.

Definition DataFrame : Type := list Row.

(** [now] is what [datetime.now().strftime("%Y%m%d_%H%M%S")] returns
    during the run; [stdout] the lines printed so far; [csv_files] the
    tables written so far, the latest first. *)
Record World : Type := mkWorld {
  fs : FileSystem;
  now : string;
  stdout : list string;
  csv_files : list (Path * DataFrame)
}.

Definition print (line : string) (w : World) : World :=
  mkWorld (fs w) (now w) (stdout w ++ [line])%list (csv_files w).

Definition print_all (lines : list string) (w : World) : World :=
  mkWorld (fs w) (now w) (stdout w ++ lines)%list (csv_files w).

Definition set_fs (fs' : FileSystem) (w : World) : World :=
  mkWorld fs' (now w) (stdout w) (csv_files w).

Definition is_kind (k : Kind) (e : Entry) : bool :=
  match snd e, k with
  | RegularFile, RegularFile | Directory, Directory | Special, Special => true
  | _, _ => false
  end.

Definition has_path (p : Path) (e : Entry) : bool := Pathlib.eqb (fst e) p.

(** [p.exists()], [p.is_dir()], [p.is_file()]: the empty relative path
    (the working directory) and the root always exist. *)
Definition path_exists (fsys : FileSystem) (p : Path) : bool :=
  match names p with
  | [] => true
  | _ => existsb (has_path p) fsys
  end.

Definition is_dir (fsys : FileSystem) (p : Path) : bool :=
  match names p with
  | [] => true
  | _ => existsb (fun e => has_path p e && is_kind Directory e) fsys
  end.

Definition is_file (fsys : FileSystem) (p : Path) : bool :=
  existsb (fun e => has_path p e && is_kind RegularFile e) fsys.

(** [p.mkdir(parents=True, exist_ok=True)], by recursion on the names of
    [p] from the last one: an existing directory is left alone, an
    existing entry of another kind raises, a missing parent is made
    first. *)
Fixpoint mkdir_rev (fsys : FileSystem) (a : string) (rnames : list string)
  : result FileSystem :=
  let p := mkPath a (List.rev rnames) in
  if path_exists fsys p then
    if is_dir fsys p then Ok fsys else Raise (FileExistsError p)
  else
    match rnames with
    | [] => Ok fsys
    | _ :: rparent =>
        let par := mkPath a (List.rev rparent) in
        if is_dir fsys par then Ok (fsys ++ [(p, Directory)])%list
        else if path_exists fsys par then Raise (NotADirectoryError p)
        else
          let* fs' := mkdir_rev fsys a rparent in
          Ok (fs' ++ [(p, Directory)])%list
    end.

Definition mkdir_parents (fsys : FileSystem) (p : Path) : result FileSystem :=
  mkdir_rev fsys (anchor p) (List.rev (names p)).

(** [below input_dir p]: [p] is strictly under [input_dir]. *)
Definition below (input_dir p : Path) : bool :=
  String.eqb (anchor p) (anchor input_dir)
  && match Pathlib.strip_prefix (names input_dir) (names p) with
     | Some (_ :: _) => true
     | _ => false
     end.

(** [input_dir.rglob('*')]: every entry under [input_dir], under the
    path [input_dir / ...] it has in the file system. *)
Definition rglob (fsys : FileSystem) (input_dir : Path) : list Path :=
  filter (below input_dir) (map fst fsys).

(** ** The directory scanner *)

(** The filter of lines 58-60 (and of the count of lines 52-54). *)
Definition qualifies (fsys : FileSystem) (file_path : Path) : bool :=
  is_file fsys file_path
  && negb (Str.startswith (Pathlib.name file_path) ".")
  && Str.mem (Str.lower (Pathlib.suffix file_path)) [".jpg"; ".jpeg"].

Definition camera_id_of (rel_path : Path) : string :=
  match Pathlib.parts rel_path with
  | p0 :: _ => p0
  | [] => "unknown"
  end.

Definition species_of (file_path : Path) : string :=
  if Pathlib.truthy (Pathlib.parent (Pathlib.parent file_path))
  then Pathlib.name (Pathlib.parent (Pathlib.parent file_path))
  else "unknown".

(** The body of the [try] of lines 61-76, up to the new row. *)
Definition derive_fields (input_dir file_path : Path) : result Row :=
  let* rel_path := Pathlib.relative_to file_path input_dir in
  let camera_id := camera_id_of rel_path in
  let species := species_of file_path in
  let count := Pathlib.name (Pathlib.parent file_path) in
  let* image_id := format_image_id file_path camera_id in
  let camera := extract_camera_number file_path in
  Ok (mkRow image_id (Pathlib.str (Pathlib.parent rel_path)) camera species count).

(** The state of the loop: the table and the lines printed. *)
Definition ScanState : Type := (DataFrame * list string)%type.

Definition error_line (file_path : Path) (e : exn) : string :=
  "Error processing " ++ Pathlib.str file_path ++ ": " ++ str_exn e.

(** One turn of the loop of lines 57-79. *)
Definition process_path (fsys : FileSystem) (input_dir : Path)
    (st : ScanState) (file_path : Path) : ScanState :=
  if qualifies fsys file_path then
    match derive_fields input_dir file_path with
    | Ok row => ((fst st ++ [row])%list, snd st)
    | Raise e => (fst st, (snd st ++ [error_line file_path e])%list)
    end
  else st.

Definition process_files (fsys : FileSystem) (input_dir : Path)
    (paths : list Path) (st : ScanState) : ScanState :=
  fold_left (process_path fsys input_dir) paths st.

(** The count of lines 52-54, shown to the operator by the progress bar. *)
Definition total_files (fsys : FileSystem) (input_dir : Path) : nat :=
  List.length (filter (qualifies fsys) (rglob fsys input_dir)).

(** [df.sort_values('Image ID')]: ascending on the strings of the
    column.  The order [pandas] gives rows of equal key is not fixed;
    here they keep their order. *)
Definition row_leb (a b : Row) : bool := String.leb (image_id a) (image_id b).

Fixpoint insert_row (r : Row) (df : DataFrame) : DataFrame :=
  match df with
  | [] => [r]
  | x :: df' => if row_leb r x then r :: df else x :: insert_row r df'
  end.

Fixpoint sort_values (df : DataFrame) : DataFrame :=
  match df with
  | [] => []
  | r :: df' => insert_row r (sort_values df')
  end.

(** [get_output_filename]: the stem and the suffix are those of
    [Path(base_filename)], and the new name, which holds no separator,
    is one component. *)
Definition get_output_filename (base_filename : string) (w : World) : Path :=
  let timestamp := now w in
  let name := fst (Pathlib.split_name base_filename) in
  let suffix := snd (Pathlib.split_name base_filename) in
  mkPath "" [name ++ "_" ++ timestamp ++ suffix].

(** [df.to_csv(output_file, index=False)]: the file is created or
    replaced; opening a directory for writing raises. *)
Definition to_csv (df : DataFrame) (output_file : Path) (w : World)
  : result unit * World :=
  if is_dir (fs w) output_file then (Raise (IsADirectoryError output_file), w)
  else
    let fs' := if path_exists (fs w) output_file then fs w
               else (fs w ++ [(output_file, RegularFile)])%list in
    (Ok tt, mkWorld fs' (now w) (stdout w) ((output_file, df) :: csv_files w)).

(** The scan of lines 50-81: the table after the loop and the sort, and
    the lines printed on the way. *)
Definition scan (fsys : FileSystem) (input_dir : Path) : ScanState :=
  let st := process_files fsys input_dir (rglob fsys input_dir) ([], []) in
  (sort_values (fst st), snd st).

(** Line 48: the output path with the time of the run in its name. *)
Definition stamped (output_file : Path) (w : World) : Path :=
  Pathlib.joinpath (Pathlib.parent output_file)
    (get_output_filename (Pathlib.name output_file) w).

Definition process_directory (input_dir output_file : Path) (w : World)
  : result bool * World :=
  if negb (path_exists (fs w) input_dir) then
    (Ok false,
     print ("Error: Input directory does not exist: " ++ Pathlib.str input_dir) w)
  else
    let output_file := stamped output_file w in
    match mkdir_parents (fs w) (Pathlib.parent output_file) with
    | Raise e => (Raise e, w)
    | Ok fs1 =>
        let w1 := set_fs fs1 w in
        let st := scan fs1 input_dir in
        let w2 := print_all (snd st) w1 in
        let df := fst st in
        match to_csv df output_file w2 with
        | (Raise e, w3) => (Raise e, w3)
        | (Ok _, w3) =>
            (Ok true,
             print ("Successfully saved " ++ Str.of_nat (List.length df)
                    ++ " images to " ++ Pathlib.str output_file) w3)
        end
    end.

(** [main], after the arguments are parsed: the exit status of the
    process and the world it leaves. *)
Definition main (input_dir output_file : Path) (w : World) : nat * World :=
  match process_directory input_dir output_file w with
  | (Ok success, w') => if success then (0, w') else (1, w')
  | (Raise e, w') => (1, print ("An error occurred: " ++ str_exn e) w')
  end.

(** What one turn of the loop adds to the table and to the output. *)
Definition contribution (fsys : FileSystem) (input_dir file_path : Path)
  : DataFrame :=
  fst (process_path fsys input_dir ([], []) file_path).

Definition reports (fsys : FileSystem) (input_dir file_path : Path)
  : list string :=
  snd (process_path fsys input_dir ([], []) file_path).

(** [a.image_id <= b.image_id] on Python strings. *)
Definition image_id_le (a b : Row) : Prop := row_leb a b = true.

(** The extension test of the filter, on a path alone. *)
Definition is_jpeg_name (p : Path) : bool :=
  Str.mem (Str.lower (Pathlib.suffix p)) [".jpg"; ".jpeg"].

Definition is_hidden (p : Path) : bool := Str.startswith (Pathlib.name p) ".".

Definition is_regular (k : Kind) : bool :=
  match k with RegularFile => true | _ => false end.

(** ** Sample trees *)

Definition rel (ns : list string) : Path := mkPath "" ns.

Definition sample_fs : FileSystem :=
  [ (rel ["data"], Directory);
    (rel ["data"; "CamA"], Directory);
    (rel ["data"; "CamA"; "Fox"], Directory);
    (rel ["data"; "CamA"; "Fox"; "3"], Directory);
    (rel ["data"; "CamA"; "Fox"; "3"; "photo2.jpg"], RegularFile);
    (rel ["data"; "CamA"; "Fox"; "3"; "2020 01 15 08 30 00.JPG"], RegularFile);
    (rel ["data"; "CamA"; "Fox"; "3"; "photo1.jpeg"], RegularFile);
    (rel ["data"; "CamA"; "Fox"; "3"; ".hidden.jpg"], RegularFile);
    (rel ["data"; "CamA"; "Fox"; "3"; "notes.txt"], RegularFile);
    (rel ["data"; "CamA"; "Fox"; "dir.jpg"], Directory);
    (rel ["data"; "IMG_0001.jpg"], RegularFile) ].

Definition sample_world : World := mkWorld sample_fs "20240102_030405" [] [].

Definition flat_fs : FileSystem :=
  [ (rel ["2020 01 15 08 30 00.jpg"], RegularFile) ].

Definition cwd : Path := rel [].

Definition flat_file : Path := rel ["2020 01 15 08 30 00.jpg"].

Definition sample_in : Path := rel ["data"].
Definition sample_out : Path := rel ["out"; "camera_trap_images.csv"].

Definition sample_world_after : World :=
  snd (process_directory sample_in sample_out sample_world).

(** The same tree met in the opposite order, at another time. *)
Definition sample_world_again : World :=
  mkWorld (List.rev sample_fs) "20250607_080910" ["an earlier line"] [].

Definition sample_world_again_after : World :=
  snd (process_directory sample_in sample_out sample_world_again).

(** A list of paths whose second one is not under [data]. *)
Definition stray_fs : FileSystem :=
  [ (rel ["data"; "a.jpg"], RegularFile);
    (rel ["elsewhere"; "x.jpg"], RegularFile);
    (rel ["data"; "b.jpg"], RegularFile) ].

(** A world where the directory asked for the output is a regular
    file. *)
Definition blocked_world : World :=
  mkWorld [ (rel ["data"], Directory); (rel ["out"], RegularFile) ]
    "20240102_030405" [] [].

(** * Properties *)

(** ** Strings and paths *)

Lemma append_assoc (a b c : string) : (a ++ b) ++ c = a ++ (b ++ c).
Proof. induction a as [|x a IH]; simpl; [reflexivity | now rewrite IH]. Qed.

Lemma names_eqb_eq (l1 l2 : list string) :
  Pathlib.names_eqb l1 l2 = true <-> l1 = l2.
Proof.
  revert l2; induction l1 as [|x l1 IH]; intros [|y l2]; simpl;
    try (split; [discriminate | congruence]); try tauto.
  rewrite andb_true_iff, String.eqb_eq, IH.
  split; [intros [-> ->]; reflexivity | intros H; inversion H; auto].
Qed.

Lemma path_eqb_eq (p q : Path) : Pathlib.eqb p q = true <-> p = q.
Proof.
  destruct p as [a ns], q as [b ms]; unfold Pathlib.eqb; simpl.
  rewrite andb_true_iff, String.eqb_eq, names_eqb_eq.
  split; [intros [-> ->]; reflexivity | intros H; inversion H; auto].
Qed.

Lemma path_eqb_refl (p : Path) : Pathlib.eqb p p = true.
Proof. apply path_eqb_eq; reflexivity. Qed.

Lemma strip_prefix_app (pre l rest : list string) :
  Pathlib.strip_prefix pre l = Some rest <-> l = (pre ++ rest)%list.
Proof.
  revert l; induction pre as [|x pre IH]; intros l; simpl.
  - split; [intros H; inversion H; reflexivity | intros ->; reflexivity].
  - destruct l as [|y l].
    + split; discriminate.
    + destruct (String.eqb_spec x y) as [->|Hxy].
      * rewrite IH. split; [intros ->; reflexivity | intros H; inversion H; auto].
      * split; [discriminate | intros H; inversion H; congruence].
Qed.

Lemma firstn_six (A : Type) (l : list A) :
  6 <= List.length l ->
  exists a b c d e f rest, l = a :: b :: c :: d :: e :: f :: rest.
Proof.
  intros H.
  destruct l as [|a [|b [|c [|d [|e [|f rest]]]]]]; simpl in H; try lia.
  now exists a, b, c, d, e, f, rest.
Qed.

(** The unpacking of [format_image_id] never raises. *)
Lemma format_image_id_total (file_path : Path) (camera_id : string) :
  exists s, format_image_id file_path camera_id = Ok s.
Proof.
  unfold format_image_id.
  destruct (Nat.leb_spec 6 (List.length (Str.split (Pathlib.stem file_path))))
    as [H|H]; [|eexists; reflexivity].
  destruct (firstn_six _ H) as (a & b & c & d & e & f & rest & ->).
  simpl. eexists; reflexivity.
Qed.

Lemma has_space_append (a b : string) :
  Str.has_space (a ++ b) = Str.has_space a || Str.has_space b.
Proof.
  unfold Str.has_space.
  induction a as [|x a IH]; simpl; [reflexivity|].
  now rewrite IH, orb_assoc.
Qed.

(** The tokens of [split] are not empty and hold no whitespace. *)
Lemma split_from_tokens (s cur : string) :
  Str.has_space cur = false ->
  Forall (fun t => t <> "" /\ Str.has_space t = false) (Str.split_from cur s).
Proof.
  revert cur. induction s as [|c s IH]; intros cur Hcur; simpl.
  - destruct cur; constructor; [split; [discriminate | exact Hcur] | constructor].
  - destruct (Str.is_space c) eqn:Ec.
    + apply Forall_app. split; [|now apply IH].
      destruct cur; constructor; [split; [discriminate | exact Hcur] | constructor].
    + apply IH. rewrite has_space_append, Hcur. unfold Str.has_space; simpl.
      now rewrite Ec.
Qed.

Lemma split_tokens (s : string) :
  Forall (fun t => t <> "" /\ Str.has_space t = false) (Str.split s).
Proof. now apply split_from_tokens. Qed.

(** ** C1: identifier normalization *)

(** C1. For every path and camera id: when the stem of the file name
    splits on whitespace into six tokens or more, the identifier is
    [camera_id_year-month-day_hour-minute-second_JPEG], built from the
    first six tokens as they are, the others dropped; with fewer than
    six tokens it is the file name with its extension, unchanged. *)
Theorem format_image_id_spec (file_path : Path) (camera_id : string) :
  let tokens := Str.split (Pathlib.stem file_path) in
  (6 <= List.length tokens ->
   exists year month day hour minute second rest,
     tokens = year :: month :: day :: hour :: minute :: second :: rest /\
     format_image_id file_path camera_id =
       Ok (camera_id ++ "_" ++ year ++ "-" ++ month ++ "-" ++ day ++ "_"
             ++ hour ++ "-" ++ minute ++ "-" ++ second ++ "_JPEG"))
  /\ (List.length tokens < 6 ->
      format_image_id file_path camera_id = Ok (Pathlib.name file_path)).
Proof.
  intros tokens; split; intros H.
  - destruct (firstn_six _ H) as (a & b & c & d & e & f & rest & Heq).
    exists a, b, c, d, e, f, rest. split; [exact Heq|].
    unfold format_image_id. fold tokens. rewrite Heq. simpl.
    repeat (rewrite append_assoc; simpl). reflexivity.
  - unfold format_image_id. fold tokens.
    destruct (Nat.leb_spec 6 (List.length tokens)); [lia | reflexivity].
Qed.

Lemma format_image_id_spec_witness :
  format_image_id (rel ["CAM1"; "2020 01 15 08 30 00.jpg"]) "CAM1"
    = Ok "CAM1_2020-01-15_08-30-00_JPEG"
  /\ format_image_id (rel ["CAM1"; "IMG_0001.jpg"]) "CAM1" = Ok "IMG_0001.jpg".
Proof.
  split.
  - destruct (format_image_id_spec (rel ["CAM1"; "2020 01 15 08 30 00.jpg"]) "CAM1")
      as [H _].
    destruct H as (y & m & d & h & mi & s & rest & Heq & Hres).
    + vm_compute. lia.
    + vm_compute in Heq. inversion Heq; subst. exact Hres.
  - destruct (format_image_id_spec (rel ["CAM1"; "IMG_0001.jpg"]) "CAM1")
      as [_ H].
    apply H. vm_compute. lia.
Defined.

(** A seventh token and what follows it are dropped. *)
Example format_image_id_extra_tokens :
  format_image_id (rel ["2020 01 15 08 30 00 extra (2).jpg"]) "CAM1"
    = Ok "CAM1_2020-01-15_08-30-00_JPEG".
Proof. reflexivity. Qed.

(** ** C10: the handler of [extract_camera_number] is dead *)

Lemma removelast_length (A : Type) (l : list A) :
  List.length (removelast l) = List.length l - 1.
Proof.
  induction l as [|x [|y l] IH]; simpl in *; try reflexivity.
  rewrite IH. lia.
Qed.

Lemma parent3_short (p : Path) :
  List.length (names p) <= 3 ->
  names (Pathlib.parent (Pathlib.parent (Pathlib.parent p))) = [].
Proof.
  intros H. simpl.
  apply length_zero_iff_nil. rewrite !removelast_length. lia.
Qed.

(** C10. For every path the body of the [try] returns, with the name of
    [file_path.parent.parent.parent], and never raises; so does the
    function, whose handler is never taken; and a path of at most three
    names, whose third parent is the bare anchor, gives the empty
    string. *)
Theorem extract_camera_number_total (file_path : Path) :
  extract_camera_number_try file_path
    = Ok (Pathlib.name (Pathlib.parent (Pathlib.parent (Pathlib.parent file_path))))
  /\ (forall e, extract_camera_number_try file_path <> Raise e)
  /\ extract_camera_number file_path
      = Pathlib.name (Pathlib.parent (Pathlib.parent (Pathlib.parent file_path)))
  /\ (List.length (names file_path) <= 3 ->
      extract_camera_number file_path = "").
Proof.
  repeat split; try reflexivity.
  - intros e; discriminate.
  - intros H. unfold extract_camera_number, extract_camera_number_try, Pathlib.name.
    rewrite (parent3_short file_path H). reflexivity.
Qed.

Lemma extract_camera_number_total_witness :
  extract_camera_number (rel ["Fox"; "3"; "photo1.jpg"]) = "".
Proof.
  apply (extract_camera_number_total (rel ["Fox"; "3"; "photo1.jpg"])).
  simpl. lia.
Defined.

(** ** The file system *)

Lemma existsb_perm (A : Type) (f : A -> bool) (l l' : list A) :
  Permutation l l' -> existsb f l = existsb f l'.
Proof.
  induction 1 as [|x l l' _ IH|x y l|l l' l'' _ IH1 _ IH2]; simpl.
  - reflexivity.
  - now rewrite IH.
  - destruct (f x), (f y); reflexivity.
  - now rewrite IH1.
Qed.

Lemma path_exists_perm (fs1 fs2 : FileSystem) (p : Path) :
  Permutation fs1 fs2 -> path_exists fs1 p = path_exists fs2 p.
Proof.
  intros H; unfold path_exists. destruct (names p); [reflexivity|].
  now apply existsb_perm.
Qed.

Lemma is_dir_perm (fs1 fs2 : FileSystem) (p : Path) :
  Permutation fs1 fs2 -> is_dir fs1 p = is_dir fs2 p.
Proof.
  intros H; unfold is_dir. destruct (names p); [reflexivity|].
  now apply existsb_perm.
Qed.

Lemma is_file_perm (fs1 fs2 : FileSystem) (p : Path) :
  Permutation fs1 fs2 -> is_file fs1 p = is_file fs2 p.
Proof. intros H; unfold is_file. now apply existsb_perm. Qed.

Lemma is_file_In (fsys : FileSystem) (p : Path) :
  is_file fsys p = true <-> In (p, RegularFile) fsys.
Proof.
  unfold is_file. rewrite existsb_exists. split.
  - intros [[q k] [Hin H]]. apply andb_true_iff in H as [Hq Hk].
    apply path_eqb_eq in Hq. simpl in Hq; subst q.
    destruct k; try discriminate. exact Hin.
  - intros Hin. exists (p, RegularFile). split; [exact Hin|].
    unfold has_path; simpl. now rewrite path_eqb_refl.
Qed.

Lemma path_exists_In (fsys : FileSystem) (p : Path) :
  path_exists fsys p = false -> ~ In p (map fst fsys).
Proof.
  unfold path_exists. destruct (names p); [discriminate|].
  intros H Hin. apply in_map_iff in Hin as [[q k] [Hq Hin]]. simpl in Hq; subst q.
  assert (existsb (has_path p) fsys = true); [|congruence].
  apply existsb_exists. exists (p, k). split; [exact Hin|].
  unfold has_path; simpl. apply path_eqb_refl.
Qed.

Lemma NoDup_fst_kind (A B : Type) (l : list (A * B)) (a : A) (b b' : B) :
  NoDup (map fst l) -> In (a, b) l -> In (a, b') l -> b = b'.
Proof.
  induction l as [|[x y] l IH]; simpl; intros Hnd H1 H2; [contradiction|].
  inversion Hnd as [|? ? Hx Hnd']; subst.
  destruct H1 as [H1|H1], H2 as [H2|H2].
  - congruence.
  - inversion H1; subst. exfalso; apply Hx.
    apply in_map_iff. exists (a, b'); auto.
  - inversion H2; subst. exfalso; apply Hx.
    apply in_map_iff. exists (a, b); auto.
  - now apply IH.
Qed.

(** On a file system that lists each path once, [is_file] is the test
    of the kind the entry has. *)
Lemma is_file_kind (fsys : FileSystem) (p : Path) (k : Kind) :
  NoDup (map fst fsys) -> In (p, k) fsys ->
  is_file fsys p = match k with RegularFile => true | _ => false end.
Proof.
  intros Hnd Hin.
  destruct (is_file fsys p) eqn:E.
  - apply is_file_In in E.
    now rewrite (NoDup_fst_kind _ _ _ _ Hnd Hin E).
  - destruct k; try reflexivity.
    apply is_file_In in Hin. congruence.
Qed.

(** ** Paths under the scan root *)

Lemma below_spec (input_dir p : Path) :
  below input_dir p = true <->
  anchor p = anchor input_dir /\
  exists x rest, names p = (names input_dir ++ x :: rest)%list.
Proof.
  unfold below. rewrite andb_true_iff, String.eqb_eq. split.
  - intros [Ha H]. split; [exact Ha|].
    destruct (Pathlib.strip_prefix (names input_dir) (names p)) as [[|x rest]|] eqn:E;
      try discriminate.
    apply strip_prefix_app in E. now exists x, rest.
  - intros [Ha (x & rest & H)]. split; [exact Ha|].
    apply strip_prefix_app in H. now rewrite H.
Qed.

Lemma rglob_In (fsys : FileSystem) (input_dir p : Path) :
  In p (rglob fsys input_dir) <->
  In p (map fst fsys) /\ below input_dir p = true.
Proof. unfold rglob. apply filter_In. Qed.

Lemma relative_to_below (input_dir p : Path) :
  below input_dir p = true ->
  exists x rest,
    names p = (names input_dir ++ x :: rest)%list /\
    Pathlib.relative_to p input_dir = Ok (mkPath "" (x :: rest)).
Proof.
  intros H. apply below_spec in H as [Ha (x & rest & Hn)].
  exists x, rest. split; [exact Hn|].
  unfold Pathlib.relative_to. rewrite Ha, String.eqb_refl.
  apply strip_prefix_app in Hn. now rewrite Hn.
Qed.

(** The body of the [try] does not raise on a path the traversal yields. *)
Lemma derive_fields_below (input_dir p : Path) :
  below input_dir p = true -> exists row, derive_fields input_dir p = Ok row.
Proof.
  intros H. destruct (relative_to_below _ _ H) as (x & rest & _ & Hrel).
  unfold derive_fields. rewrite Hrel. simpl.
  destruct (format_image_id_total p (camera_id_of (mkPath "" (x :: rest))))
    as [s Hs].
  rewrite Hs. simpl. eexists; reflexivity.
Qed.

(** ** The loop *)

Lemma process_path_app (fsys : FileSystem) (input_dir p : Path) (st : ScanState) :
  process_path fsys input_dir st p =
    ((fst st ++ contribution fsys input_dir p)%list,
     (snd st ++ reports fsys input_dir p)%list).
Proof.
  unfold contribution, reports, process_path.
  destruct st as [df log]; simpl.
  destruct (qualifies fsys p); simpl; [|now rewrite !app_nil_r].
  destruct (derive_fields input_dir p); simpl; now rewrite ?app_nil_r.
Qed.

Lemma process_files_flat_map (fsys : FileSystem) (input_dir : Path)
    (paths : list Path) (st : ScanState) :
  process_files fsys input_dir paths st =
    ((fst st ++ flat_map (contribution fsys input_dir) paths)%list,
     (snd st ++ flat_map (reports fsys input_dir) paths)%list).
Proof.
  unfold process_files. revert st.
  induction paths as [|p paths IH]; intros st; simpl.
  - rewrite !app_nil_r. now destruct st.
  - rewrite IH, process_path_app. simpl. now rewrite !app_assoc.
Qed.

Lemma contribution_length (fsys : FileSystem) (input_dir p : Path) :
  below input_dir p = true ->
  List.length (contribution fsys input_dir p)
    = if qualifies fsys p then 1 else 0.
Proof.
  intros H. unfold contribution, process_path.
  destruct (qualifies fsys p); [|reflexivity].
  destruct (derive_fields_below _ _ H) as [row ->]. reflexivity.
Qed.

Lemma contribution_perm (fs1 fs2 : FileSystem) (input_dir p : Path) :
  Permutation fs1 fs2 ->
  contribution fs1 input_dir p = contribution fs2 input_dir p.
Proof.
  intros H. unfold contribution, process_path, qualifies.
  now rewrite (is_file_perm p H).
Qed.

(** ** The sort *)

Lemma insert_row_perm (r : Row) (df : DataFrame) :
  Permutation (insert_row r df) (r :: df).
Proof.
  induction df as [|x df IH]; simpl; [reflexivity|].
  destruct (row_leb r x); [reflexivity|].
  rewrite IH. apply perm_swap.
Qed.

Lemma sort_values_perm (df : DataFrame) : Permutation (sort_values df) df.
Proof.
  induction df as [|r df IH]; simpl; [reflexivity|].
  rewrite insert_row_perm. now constructor.
Qed.

Lemma row_leb_total (a b : Row) : row_leb a b = true \/ row_leb b a = true.
Proof. apply String.leb_total. Qed.

Lemma insert_row_sorted (r : Row) (df : DataFrame) :
  Sorted image_id_le df -> Sorted image_id_le (insert_row r df).
Proof.
  induction df as [|x df IH]; simpl; intros H.
  - repeat constructor.
  - destruct (row_leb r x) eqn:E.
    + constructor; [exact H | constructor; exact E].
    + inversion H as [|? ? Hs Hhd]; subst.
      constructor; [now apply IH|].
      assert (Hxr : image_id_le x r).
      { destruct (row_leb_total r x) as [C|C]; [congruence | exact C]. }
      destruct df as [|y df]; simpl.
      * constructor; exact Hxr.
      * destruct (row_leb r y); constructor; [exact Hxr|].
        now inversion Hhd.
Qed.

Lemma sort_values_sorted (df : DataFrame) : Sorted image_id_le (sort_values df).
Proof.
  induction df as [|r df IH]; simpl; [constructor | now apply insert_row_sorted].
Qed.

(** ** [mkdir] *)

Lemma mkdir_rev_perm (fs1 fs2 : FileSystem) (a : string) (rnames : list string) :
  Permutation fs1 fs2 ->
  match mkdir_rev fs1 a rnames, mkdir_rev fs2 a rnames with
  | Ok f1, Ok f2 => Permutation f1 f2
  | Raise e1, Raise e2 => e1 = e2
  | _, _ => False
  end.
Proof.
  intros H.
  assert (Hpe := fun p => path_exists_perm p H).
  assert (Hid := fun p => is_dir_perm p H).
  induction rnames as [|x rparent IH]; simpl; rewrite <- ?Hpe, <- ?Hid.
  - exact H.
  - destruct (path_exists fs1 _); [destruct (is_dir fs1 _); auto|].
    destruct (is_dir fs1 _); [now apply Permutation_app_tail|].
    destruct (path_exists fs1 _); [reflexivity|].
    destruct (mkdir_rev fs1 a rparent), (mkdir_rev fs2 a rparent); simpl; auto.
    now apply Permutation_app_tail.
Qed.

Lemma NoDup_snoc (A : Type) (l : list A) (x : A) :
  NoDup l -> ~ In x l -> NoDup (l ++ [x]).
Proof.
  intros Hl Hx. apply (Permutation_NoDup (Permutation_cons_append l x)).
  now constructor.
Qed.

Lemma mkdir_rev_inv (fsys : FileSystem) (a : string) (rnames : list string)
    (fs' : FileSystem) :
  mkdir_rev fsys a rnames = Ok fs' ->
  (NoDup (map fst fsys) -> NoDup (map fst fs')) /\
  (forall q, In q (map fst fs') ->
     In q (map fst fsys) \/ List.length (names q) <= List.length rnames).
Proof.
  revert fs'. induction rnames as [|x rparent IH]; intros fs'; simpl.
  - intros E; inversion E; subst; auto.
  - destruct (path_exists fsys (mkPath a (List.rev rparent ++ [x]))) eqn:Ep.
    { destruct (is_dir fsys _); intros E; inversion E; subst; auto. }
    assert (Hp := path_exists_In _ _ Ep).
    assert (Hadd : forall f0 : FileSystem,
      (NoDup (map fst fsys) -> NoDup (map fst f0)) ->
      (forall q, In q (map fst f0) ->
         In q (map fst fsys) \/ List.length (names q) <= List.length rparent) ->
      (NoDup (map fst fsys) ->
       NoDup (map fst (f0 ++ [(mkPath a (List.rev rparent ++ [x]), Directory)]))) /\
      (forall q,
         In q (map fst (f0 ++ [(mkPath a (List.rev rparent ++ [x]), Directory)])) ->
         In q (map fst fsys) \/ List.length (names q) <= S (List.length rparent))).
    { intros f0 Hnd Hin. split.
      - intros H0. rewrite map_app; simpl. apply NoDup_snoc; [auto|].
        intros Hq. destruct (Hin _ Hq) as [C|C]; [contradiction|].
        simpl in C. rewrite length_app, length_rev in C. simpl in C. lia.
      - intros q Hq. rewrite map_app, in_app_iff in Hq. destruct Hq as [Hq|Hq].
        + destruct (Hin _ Hq); [auto | right; lia].
        + simpl in Hq. destruct Hq as [<-|[]]. right. simpl.
          rewrite length_app, length_rev. simpl. lia. }
    destruct (is_dir fsys (mkPath a (List.rev rparent))).
    { intros E; inversion E; subst. apply Hadd; auto. }
    destruct (path_exists fsys (mkPath a (List.rev rparent))); [discriminate|].
    destruct (mkdir_rev fsys a rparent) as [f0|e]; simpl; [|discriminate].
    intros E; inversion E; subst.
    destruct (IH f0 eq_refl) as [H1 H2]. now apply Hadd.
Qed.

Lemma mkdir_parents_NoDup (fsys fs' : FileSystem) (p : Path) :
  mkdir_parents fsys p = Ok fs' -> NoDup (map fst fsys) -> NoDup (map fst fs').
Proof. intros H. apply (mkdir_rev_inv _ _ _ H). Qed.

(** ** The whole run *)

Lemma process_directory_true (input_dir output_file : Path) (w w' : World) :
  process_directory input_dir output_file w = (Ok true, w') ->
  exists fs1,
    path_exists (fs w) input_dir = true /\
    mkdir_parents (fs w) (Pathlib.parent (stamped output_file w)) = Ok fs1 /\
    csv_files w' = (stamped output_file w, fst (scan fs1 input_dir)) :: csv_files w.
Proof.
  unfold process_directory.
  destruct (path_exists (fs w) input_dir); simpl; [|discriminate].
  destruct (mkdir_parents (fs w) _) as [fs1|e]; [|discriminate].
  unfold to_csv; simpl.
  destruct (is_dir fs1 _); [discriminate|].
  intros E; inversion E; subst; simpl.
  exists fs1. auto.
Qed.

(** The run succeeds as soon as the root exists, the directory of the
    output can be made and the output path is not a directory. *)
Lemma process_directory_succeeds (input_dir output_file : Path) (w : World)
    (fs1 : FileSystem) :
  path_exists (fs w) input_dir = true ->
  mkdir_parents (fs w) (Pathlib.parent (stamped output_file w)) = Ok fs1 ->
  is_dir fs1 (stamped output_file w) = false ->
  exists w',
    process_directory input_dir output_file w = (Ok true, w') /\
    csv_files w' = (stamped output_file w, fst (scan fs1 input_dir)) :: csv_files w.
Proof.
  intros Hroot Hmk Hout. unfold process_directory.
  rewrite Hroot, Hmk. simpl. unfold to_csv; simpl. rewrite Hout.
  eexists; split; reflexivity.
Qed.

(** The two photographs of [CamA/Fox/3] and the two other qualifying
    files of the sample tree, as written. *)
Example sample_table :
  csv_files sample_world_after =
    [ (rel ["out"; "camera_trap_images_20240102_030405.csv"],
       [ mkRow "CamA_2020-01-15_08-30-00_JPEG" "CamA/Fox/3" "CamA" "Fox" "3";
         mkRow "IMG_0001.jpg" "." "" "" "data";
         mkRow "photo1.jpeg" "CamA/Fox/3" "CamA" "Fox" "3";
         mkRow "photo2.jpg" "CamA/Fox/3" "CamA" "Fox" "3" ]) ].
Proof. vm_compute. reflexivity. Qed.

Lemma scan_rows (fsys : FileSystem) (input_dir : Path) :
  fst (scan fsys input_dir)
    = sort_values (flat_map (contribution fsys input_dir) (rglob fsys input_dir)).
Proof. unfold scan. now rewrite process_files_flat_map. Qed.

Lemma flat_map_contribution_length (fsys : FileSystem) (input_dir : Path)
    (paths : list Path) :
  Forall (fun p => below input_dir p = true) paths ->
  List.length (flat_map (contribution fsys input_dir) paths)
    = List.length (filter (qualifies fsys) paths).
Proof.
  induction 1 as [|p paths Hp _ IH]; simpl; [reflexivity|].
  rewrite length_app, IH, (contribution_length fsys _ _ Hp).
  destruct (qualifies fsys p); reflexivity.
Qed.

Lemma rglob_all_below (fsys : FileSystem) (input_dir : Path) :
  Forall (fun p => below input_dir p = true) (rglob fsys input_dir).
Proof. apply Forall_forall. intros p Hp. now apply rglob_In in Hp. Qed.

(** ** C2: one row for each qualifying file *)

(** C2. When the run succeeds over a file system that lists each path
    once, the table written is, up to the order of its rows, what the
    paths under the scan root contribute, each path being taken once; a
    path contributes one row when its entry is a regular file whose name
    does not start with a dot and whose extension, in lower case, is
    [.jpg] or [.jpeg], and none otherwise; so the table has as many rows
    as there are qualifying files. *)
Theorem one_row_per_qualifying_file (input_dir output_file : Path) (w w' : World) :
  NoDup (map fst (fs w)) ->
  process_directory input_dir output_file w = (Ok true, w') ->
  exists fs1 df,
    mkdir_parents (fs w) (Pathlib.parent (stamped output_file w)) = Ok fs1 /\
    csv_files w' = (stamped output_file w, df) :: csv_files w /\
    NoDup (rglob fs1 input_dir) /\
    Permutation df (flat_map (contribution fs1 input_dir) (rglob fs1 input_dir)) /\
    List.length df = total_files fs1 input_dir /\
    forall p k, In (p, k) fs1 -> below input_dir p = true ->
      List.length (contribution fs1 input_dir p)
        = if is_regular k && negb (is_hidden p) && is_jpeg_name p then 1 else 0.
Proof.
  intros Hnd Hrun.
  destruct (process_directory_true _ _ _ Hrun) as (fs1 & _ & Hmk & Hcsv).
  exists fs1, (fst (scan fs1 input_dir)).
  assert (Hnd1 := mkdir_parents_NoDup _ _ Hmk Hnd).
  assert (Hperm : Permutation (fst (scan fs1 input_dir))
            (flat_map (contribution fs1 input_dir) (rglob fs1 input_dir))).
  { rewrite scan_rows. apply sort_values_perm. }
  repeat split; auto.
  - unfold rglob. now apply NoDup_filter.
  - rewrite (Permutation_length Hperm). unfold total_files.
    apply flat_map_contribution_length, rglob_all_below.
  - intros p k Hin Hbelow.
    rewrite (contribution_length fs1 _ _ Hbelow). unfold qualifies.
    rewrite (@is_file_kind fs1 p k Hnd1 Hin). unfold is_regular.
    destruct k; reflexivity.
Qed.

Lemma sample_fs_NoDup : NoDup (map fst sample_fs).
Proof.
  unfold sample_fs; simpl.
  repeat (constructor; [simpl; intuition discriminate|]). constructor.
Qed.

Lemma sample_run : process_directory sample_in sample_out sample_world
                   = (Ok true, sample_world_after).
Proof. vm_compute. reflexivity. Qed.

Lemma one_row_per_qualifying_file_witness :
  exists fs1 df,
    mkdir_parents (fs sample_world) (Pathlib.parent (stamped sample_out sample_world))
      = Ok fs1 /\
    csv_files sample_world_after
      = (stamped sample_out sample_world, df) :: csv_files sample_world /\
    NoDup (rglob fs1 sample_in) /\
    Permutation df (flat_map (contribution fs1 sample_in) (rglob fs1 sample_in)) /\
    List.length df = total_files fs1 sample_in /\
    forall p k, In (p, k) fs1 -> below sample_in p = true ->
      List.length (contribution fs1 sample_in p)
        = if is_regular k && negb (is_hidden p) && is_jpeg_name p then 1 else 0.
Proof.
  apply (@one_row_per_qualifying_file sample_in sample_out sample_world sample_world_after).
  - exact sample_fs_NoDup.
  - exact sample_run.
Defined.

(** ** C6: the rows are written in ascending order of [Image ID] *)

(** C6. Whatever the order in which the file system lists its entries,
    when the run succeeds each row of the table written has an
    identifier that is at most, as a string, the one of the row after
    it. *)
Theorem output_sorted (input_dir output_file : Path) (w w' : World) :
  process_directory input_dir output_file w = (Ok true, w') ->
  exists df,
    csv_files w' = (stamped output_file w, df) :: csv_files w /\
    Sorted image_id_le df.
Proof.
  intros Hrun.
  destruct (process_directory_true _ _ _ Hrun) as (fs1 & _ & _ & Hcsv).
  exists (fst (scan fs1 input_dir)). split; [exact Hcsv|].
  rewrite scan_rows. apply sort_values_sorted.
Qed.

Lemma output_sorted_witness :
  exists df,
    csv_files sample_world_again_after
      = (stamped sample_out sample_world_again, df) :: csv_files sample_world_again /\
    Sorted image_id_le df.
Proof.
  apply (@output_sorted sample_in sample_out sample_world_again sample_world_again_after).
  vm_compute. reflexivity.
Defined.

(** ** C8: a missing root *)

(** C8. When the root does not exist the run prints the error and
    returns [False] at once: no directory is made, no table is written,
    and the process exits with status 1. *)
Theorem missing_root (input_dir output_file : Path) (w : World) :
  path_exists (fs w) input_dir = false ->
  let w' :=
    print ("Error: Input directory does not exist: " ++ Pathlib.str input_dir) w in
  process_directory input_dir output_file w = (Ok false, w') /\
  main input_dir output_file w = (1, w') /\
  fs w' = fs w /\ csv_files w' = csv_files w.
Proof.
  intros H w'. unfold main, process_directory. rewrite H. simpl. auto.
Qed.

Lemma missing_root_witness :
  main (rel ["nodata"]) sample_out sample_world
    = (1, print "Error: Input directory does not exist: nodata" sample_world).
Proof.
  apply (@missing_root (rel ["nodata"]) sample_out sample_world).
  vm_compute. reflexivity.
Defined.

(** ** C9: the rows do not depend on the run *)

Lemma rglob_perm (fs1 fs2 : FileSystem) (input_dir : Path) :
  Permutation fs1 fs2 -> Permutation (rglob fs1 input_dir) (rglob fs2 input_dir).
Proof.
  intros H. unfold rglob.
  induction (Permutation_map fst H) as [|x l l' _ IH|x y l|l l' l'' _ IH1 _ IH2];
    simpl.
  - constructor.
  - destruct (below input_dir x); [now constructor | exact IH].
  - destruct (below input_dir x), (below input_dir y);
      try reflexivity. apply perm_swap.
  - now rewrite IH1.
Qed.

Lemma scan_perm (fs1 fs2 : FileSystem) (input_dir : Path) :
  Permutation fs1 fs2 ->
  Permutation (fst (scan fs1 input_dir)) (fst (scan fs2 input_dir)).
Proof.
  intros H. rewrite !scan_rows, !sort_values_perm.
  rewrite (flat_map_ext _ _ (fun p => contribution_perm input_dir p H)).
  apply Permutation_flat_map. now apply rglob_perm.
Qed.

(** C9. Two successful runs over the same tree, whatever the order in
    which each meets the entries and whatever the time, what was printed
    and what was written before, write tables that hold the same rows. *)
Theorem scan_deterministic (input_dir output_file : Path) (w1 w2 w1' w2' : World) :
  Permutation (fs w1) (fs w2) ->
  process_directory input_dir output_file w1 = (Ok true, w1') ->
  process_directory input_dir output_file w2 = (Ok true, w2') ->
  exists df1 df2,
    csv_files w1' = (stamped output_file w1, df1) :: csv_files w1 /\
    csv_files w2' = (stamped output_file w2, df2) :: csv_files w2 /\
    Permutation df1 df2.
Proof.
  intros Hfs H1 H2.
  destruct (process_directory_true _ _ _ H1) as (f1 & _ & Hmk1 & Hcsv1).
  destruct (process_directory_true _ _ _ H2) as (f2 & _ & Hmk2 & Hcsv2).
  exists (fst (scan f1 input_dir)), (fst (scan f2 input_dir)).
  repeat split; auto.
  apply scan_perm.
  unfold mkdir_parents, stamped in Hmk1, Hmk2. simpl in Hmk1, Hmk2.
  rewrite removelast_last in Hmk1, Hmk2.
  assert (P := mkdir_rev_perm (anchor output_file)
                 (List.rev (removelast (names output_file))) Hfs).
  rewrite Hmk1, Hmk2 in P. exact P.
Qed.

Lemma scan_deterministic_witness :
  exists df1 df2,
    csv_files sample_world_after
      = (stamped sample_out sample_world, df1) :: csv_files sample_world /\
    csv_files sample_world_again_after
      = (stamped sample_out sample_world_again, df2)
          :: csv_files sample_world_again /\
    Permutation df1 df2.
Proof.
  apply (@scan_deterministic sample_in sample_out
            sample_world sample_world_again
            sample_world_after sample_world_again_after).
  - apply Permutation_rev.
  - exact sample_run.
  - vm_compute. reflexivity.
Defined.

(** ** C7: a file whose fields cannot be derived *)

(** C7. When the body of the [try] raises on a qualifying path, the loop
    goes on: the table at the end is the one the loop builds without
    that path, and what is printed differs by one line, which names the
    path and the error. *)
Theorem failure_isolated (fsys : FileSystem) (input_dir file_path : Path)
    (before after : list Path) (e : exn) (st : ScanState) :
  qualifies fsys file_path = true ->
  derive_fields input_dir file_path = Raise e ->
  let bad := process_files fsys input_dir (before ++ file_path :: after) st in
  let good := process_files fsys input_dir (before ++ after) st in
  fst bad = fst good /\
  exists log1 log2,
    snd bad = (log1 ++ error_line file_path e :: log2)%list /\
    snd good = (log1 ++ log2)%list.
Proof.
  intros Hq He bad good. subst bad good.
  rewrite !process_files_flat_map. simpl.
  rewrite !flat_map_app. simpl.
  assert (Hc : contribution fsys input_dir file_path = []).
  { unfold contribution, process_path. now rewrite Hq, He. }
  assert (Hr : reports fsys input_dir file_path = [error_line file_path e]).
  { unfold reports, process_path. now rewrite Hq, He. }
  rewrite Hc, Hr. simpl. split; [reflexivity|].
  exists (snd st ++ flat_map (reports fsys input_dir) before)%list,
         (flat_map (reports fsys input_dir) after).
  now rewrite !app_assoc.
Qed.

Lemma failure_isolated_witness :
  process_files stray_fs sample_in
    [rel ["data"; "a.jpg"]; rel ["elsewhere"; "x.jpg"]; rel ["data"; "b.jpg"]]
    ([], [])
  = ([mkRow "a.jpg" "." "" "" "data"; mkRow "b.jpg" "." "" "" "data"],
     ["Error processing elsewhere/x.jpg: 'elsewhere/x.jpg' is not in the subpath of 'data'"]).
Proof.
  destruct (@failure_isolated stray_fs sample_in (rel ["elsewhere"; "x.jpg"])
              [rel ["data"; "a.jpg"]] [rel ["data"; "b.jpg"]]
              (ValueError_not_subpath (rel ["elsewhere"; "x.jpg"]) sample_in)
              ([], []))
    as [Hrows (log1 & log2 & Hbad & Hgood)].
  - vm_compute. reflexivity.
  - vm_compute. reflexivity.
  - vm_compute. reflexivity.
Defined.

(** On the paths the traversal yields the handler is never entered:
    nothing is printed by the loop. *)
Lemma scan_prints_nothing (fsys : FileSystem) (input_dir : Path) :
  snd (scan fsys input_dir) = [].
Proof.
  unfold scan. rewrite process_files_flat_map. simpl.
  assert (H := rglob_all_below fsys input_dir).
  induction H as [|p paths Hp _ IH]; simpl; [reflexivity|].
  rewrite IH, app_nil_r. unfold reports, process_path.
  destruct (qualifies fsys p); [|reflexivity].
  destruct (derive_fields_below _ _ Hp) as [row ->]. reflexivity.
Qed.

(** ** C3, C4, C5: the fields taken from the directories *)

(** A file three directories or more under the root: the camera is the
    directory three levels up. *)
Lemma camera_of_deep_file (a : string) (pre : list string)
    (cam sp cnt f : string) :
  extract_camera_number (mkPath a (pre ++ [cam; sp; cnt; f])) = cam.
Proof.
  unfold extract_camera_number, extract_camera_number_try, Pathlib.name,
    Pathlib.parent; simpl.
  rewrite !removelast_app by discriminate. simpl.
  apply last_last.
Qed.

Lemma species_of_deep_file (a : string) (pre : list string) (sp cnt f : string) :
  species_of (mkPath a (pre ++ [sp; cnt; f])) = sp.
Proof.
  unfold species_of, Pathlib.truthy, Pathlib.name, Pathlib.parent; simpl.
  rewrite !removelast_app by discriminate. simpl.
  apply last_last.
Qed.

(** The condition on the grandparent is always true. *)
Lemma species_of_name (p : Path) :
  species_of p = Pathlib.name (Pathlib.parent (Pathlib.parent p)).
Proof. reflexivity. Qed.

(** The camera id is the first name of the relative path: a directory
    when there is one, the file name itself otherwise. *)
Lemma camera_id_of_below (input_dir p : Path) :
  below input_dir p = true ->
  exists x rest,
    names p = (names input_dir ++ x :: rest)%list /\
    Pathlib.relative_to p input_dir = Ok (mkPath "" (x :: rest)) /\
    camera_id_of (mkPath "" (x :: rest)) = x.
Proof.
  intros H. destruct (relative_to_below _ _ H) as (x & rest & Hn & Hrel).
  exists x, rest. auto.
Qed.

(** C3, at a file directly under the root ['.']: the third parent is the
    empty path, whose name is the empty string, and this is the camera
    of the row; the handler that returns ["unknown"] is not entered. *)
Theorem camera_of_shallow_file :
  extract_camera_number flat_file = ""
  /\ map camera (fst (scan flat_fs cwd)) = [""]
  /\ extract_camera_number flat_file <> "unknown".
Proof. repeat split; try reflexivity. discriminate. Qed.

(** Under an absolute root the ascent leaves the root without failing. *)
Example camera_above_root :
  extract_camera_number (mkPath "/" ["home"; "user"; "traps"; "IMG_0001.jpg"])
    = "home".
Proof. reflexivity. Qed.

(** C4, at the same file: the grandparent is the empty path, a true
    value, and the species of the row is its name, the empty string. *)
Theorem species_of_shallow_file :
  species_of flat_file = ""
  /\ map species (fst (scan flat_fs cwd)) = [""]
  /\ species_of flat_file <> "unknown".
Proof. repeat split; try reflexivity. discriminate. Qed.

(** C5, at the same file: the parts of the relative path are the file
    name alone, so the camera id is the file name, and the identifier
    starts with it. *)
Theorem camera_id_of_shallow_file :
  Pathlib.relative_to flat_file cwd = Ok flat_file
  /\ camera_id_of flat_file = "2020 01 15 08 30 00.jpg"
  /\ map image_id (fst (scan flat_fs cwd))
     = ["2020 01 15 08 30 00.jpg_2020-01-15_08-30-00_JPEG"].
Proof. repeat split; reflexivity. Qed.

(** * Further properties of the code *)

(** ** Names, stems and suffixes *)

Lemma length_append (a b : string) :
  String.length (a ++ b) = String.length a + String.length b.
Proof. induction a as [|x a IH]; simpl; [reflexivity | now rewrite IH]. Qed.

Lemma append_inv_head (a b c : string) : a ++ b = a ++ c -> b = c.
Proof.
  induction a as [|x a IH]; simpl; intros H; [exact H|].
  inversion H. auto.
Qed.

Lemma append_inv_tail (a b c : string) : a ++ c = b ++ c -> a = b.
Proof.
  revert b. induction a as [|x a IH]; intros [|y b] H; simpl in H.
  - reflexivity.
  - apply (f_equal String.length) in H. simpl in H.
    rewrite length_append in H. lia.
  - apply (f_equal String.length) in H. simpl in H.
    rewrite length_append in H. lia.
  - inversion H. f_equal. auto.
Qed.

Lemma substring_zero_zero (s : string) : substring 0 0 s = "".
Proof. destruct s; reflexivity. Qed.

Lemma substring_all (s : string) : substring 0 (String.length s) s = s.
Proof. induction s as [|c s IH]; simpl; [reflexivity | now rewrite IH]. Qed.

Lemma substring_head (a b : string) :
  substring 0 (String.length a) (a ++ b) = a.
Proof.
  induction a as [|x a IH]; simpl; [apply substring_zero_zero | now rewrite IH].
Qed.

Lemma substring_tail (a b : string) :
  substring (String.length a) (String.length b) (a ++ b) = b.
Proof.
  induction a as [|x a IH]; simpl; [apply substring_all | exact IH].
Qed.

(** The last dot of [a.b] is the one written when [b] holds none. *)
Lemma rfind_dot_append (a b : string) :
  Str.rfind_dot b = None ->
  Str.rfind_dot (a ++ String "." b) = Some (String.length a).
Proof.
  intros Hb. induction a as [|x a IH]; simpl.
  - now rewrite Hb.
  - now rewrite IH.
Qed.

Lemma rfind_dot_Some (nm : string) (i : nat) :
  Str.rfind_dot nm = Some i ->
  exists a b,
    nm = a ++ String "." b /\ String.length a = i /\ Str.rfind_dot b = None.
Proof.
  revert i. induction nm as [|c nm IH]; simpl; intros i H; [discriminate|].
  destruct (Str.rfind_dot nm) as [j|] eqn:E.
  - inversion H; subst. destruct (IH j eq_refl) as (a & b & -> & Hlen & Hb).
    exists (String c a), b. simpl. auto.
  - destruct (Ascii.eqb_spec c "."%char) as [->|]; [|discriminate].
    inversion H; subst. exists "", nm. auto.
Qed.

(** A name [a.b] with [a] and [b] not empty and no dot in [b] splits
    into the stem [a] and the suffix [.b]. *)
Lemma split_name_dot (a b : string) :
  a <> "" -> b <> "" -> Str.rfind_dot b = None ->
  Pathlib.split_name (a ++ String "." b) = (a, String "." b).
Proof.
  intros Ha Hb Hdot. unfold Pathlib.split_name.
  rewrite (@rfind_dot_append a b Hdot).
  assert (La : 0 < String.length a) by (destruct a; simpl; [congruence | lia]).
  assert (Lb : 0 < String.length b) by (destruct b; simpl; [congruence | lia]).
  rewrite length_append. simpl String.length.
  replace ((0 <? String.length a)%nat) with true
    by (symmetry; apply Nat.ltb_lt; lia).
  replace ((String.length a <? String.length a + S (String.length b) - 1)%nat)
    with true by (symmetry; apply Nat.ltb_lt; lia).
  simpl andb. cbv iota.
  rewrite substring_head.
  replace (String.length a + S (String.length b) - String.length a)
    with (String.length (String "." b)) by (simpl; lia).
  now rewrite substring_tail.
Qed.

(** What [split_name] returns: the two pieces put together give the
    name back, and a suffix that is not empty is a dot followed by a
    non-empty text without dot, after a stem that is not empty. *)
Lemma split_name_inv (nm : string) :
  nm = fst (Pathlib.split_name nm) ++ snd (Pathlib.split_name nm) /\
  (snd (Pathlib.split_name nm) = "" \/
   exists b,
     snd (Pathlib.split_name nm) = String "." b /\
     b <> "" /\ Str.rfind_dot b = None /\
     fst (Pathlib.split_name nm) <> "").
Proof.
  unfold Pathlib.split_name.
  destruct (Str.rfind_dot nm) as [i|] eqn:E.
  2:{ simpl. split; [|now left].
      clear E. induction nm as [|c nm IH]; simpl; [reflexivity | now rewrite <- IH]. }
  destruct (@rfind_dot_Some nm i E) as (a & b & -> & Hlen & Hb). subst i.
  destruct ((0 <? String.length a)%nat
            && (String.length a <? String.length (a ++ String "." b) - 1)%nat)
    eqn:Hc.
  2:{ simpl. split; [|now left].
      generalize (a ++ String "." b). clear.
      induction s as [|c s IH]; simpl; [reflexivity | now rewrite <- IH]. }
  apply andb_true_iff in Hc as [H1 H2].
  apply Nat.ltb_lt in H1, H2. rewrite length_append in H2. simpl in H2.
  rewrite substring_head.
  replace (String.length (a ++ String "." b) - String.length a)
    with (String.length (String "." b))
    by (rewrite length_append; simpl; lia).
  rewrite substring_tail. simpl. split; [reflexivity|]. right.
  exists b. repeat split; auto.
  - destruct b; simpl in H2; [lia | discriminate].
  - destruct a; simpl in H1; [lia | discriminate].
Qed.

(** ** The name of the output file *)

(** X1. When the requested name has a suffix, the name made by
    [get_output_filename] has the same suffix, and its stem is the
    requested stem, an underscore and the time stamp, whatever the time
    stamp holds. *)
Theorem get_output_filename_keeps_suffix (base_filename : string) (w : World) :
  snd (Pathlib.split_name base_filename) <> "" ->
  Pathlib.suffix (get_output_filename base_filename w)
    = snd (Pathlib.split_name base_filename)
  /\ Pathlib.stem (get_output_filename base_filename w)
     = fst (Pathlib.split_name base_filename) ++ "_" ++ now w.
Proof.
  intros Hsuf.
  destruct (split_name_inv base_filename) as [_ [Hempty|(b & Hb & Hne & Hdot & Hstem)]];
    [contradiction|].
  unfold Pathlib.suffix, Pathlib.stem, get_output_filename, Pathlib.name.
  simpl names. simpl last. rewrite Hb.
  assert (E : fst (Pathlib.split_name base_filename)
                ++ String "_" (now w ++ String "." b)
              = (fst (Pathlib.split_name base_filename) ++ "_" ++ now w)
                ++ String "." b)
    by now rewrite !append_assoc.
  rewrite E.
  rewrite split_name_dot; auto.
  destruct (fst (Pathlib.split_name base_filename)); [congruence | discriminate].
Qed.

Lemma get_output_filename_keeps_suffix_witness :
  Pathlib.suffix (get_output_filename "camera_trap_images.csv" sample_world) = ".csv"
  /\ Pathlib.stem (get_output_filename "camera_trap_images.csv" sample_world)
     = "camera_trap_images_20240102_030405".
Proof.
  apply (@get_output_filename_keeps_suffix "camera_trap_images.csv" sample_world).
  vm_compute. discriminate.
Defined.

(** X2. The stamped output path is in the directory of the requested
    path, and two runs whose time stamps differ write to different
    paths. *)
Theorem stamped_in_place_and_distinct (output_file : Path) (w1 w2 : World) :
  Pathlib.parent (stamped output_file w1) = Pathlib.parent output_file
  /\ (now w1 <> now w2 -> stamped output_file w1 <> stamped output_file w2).
Proof.
  split.
  - unfold stamped, Pathlib.parent, Pathlib.joinpath, get_output_filename.
    simpl. now rewrite removelast_last.
  - intros Hnow Heq. apply Hnow.
    unfold stamped, Pathlib.joinpath, get_output_filename in Heq. simpl in Heq.
    inversion Heq as [H]. apply app_inv_head in H. inversion H as [H'].
    apply append_inv_head in H'. simpl in H'. inversion H' as [H''].
    now apply append_inv_tail in H''.
Qed.

Lemma stamped_in_place_and_distinct_witness :
  stamped sample_out sample_world <> stamped sample_out sample_world_again.
Proof.
  apply (@stamped_in_place_and_distinct sample_out sample_world sample_world_again).
  vm_compute. discriminate.
Defined.

(** ** What the run does to the file system *)

(** A successful [mkdir] only adds directories, at paths that did not
    exist. *)
Lemma mkdir_rev_added (fsys : FileSystem) (a : string) (rnames : list string)
    (fs' : FileSystem) :
  mkdir_rev fsys a rnames = Ok fs' ->
  exists added,
    fs' = (fsys ++ added)%list /\
    Forall (fun e => snd e = Directory /\ path_exists fsys (fst e) = false) added.
Proof.
  revert fs'. induction rnames as [|x rparent IH]; intros fs'; simpl.
  - intros E; inversion E; subst. exists []. now rewrite app_nil_r.
  - destruct (path_exists fsys (mkPath a (List.rev rparent ++ [x]))) eqn:Ep.
    { destruct (is_dir fsys _); intros E; inversion E; subst.
      exists []. now rewrite app_nil_r. }
    destruct (is_dir fsys (mkPath a (List.rev rparent))).
    { intros E; inversion E; subst.
      exists [(mkPath a (List.rev rparent ++ [x]), Directory)].
      split; [reflexivity|]. repeat constructor. exact Ep. }
    destruct (path_exists fsys (mkPath a (List.rev rparent))); [discriminate|].
    destruct (mkdir_rev fsys a rparent) as [f0|e]; simpl; [|discriminate].
    intros E; inversion E; subst.
    destruct (IH f0 eq_refl) as (added & -> & Hadded).
    exists (added ++ [(mkPath a (List.rev rparent ++ [x]), Directory)])%list.
    split; [now rewrite app_assoc|].
    apply Forall_app. split; [exact Hadded|]. repeat constructor. exact Ep.
Qed.

Lemma is_file_absent (fsys : FileSystem) (p : Path) :
  path_exists fsys p = false -> is_file fsys p = false.
Proof.
  intros H. destruct (is_file fsys p) eqn:E; [|reflexivity].
  apply is_file_In in E. exfalso. apply (path_exists_In _ _ H).
  apply in_map_iff. now exists (p, RegularFile).
Qed.

Lemma is_file_added (fsys added : FileSystem) (p : Path) :
  Forall (fun e => snd e = Directory /\ path_exists fsys (fst e) = false) added ->
  is_file (fsys ++ added)%list p = is_file fsys p.
Proof.
  intros H. unfold is_file. rewrite existsb_app.
  replace (existsb (fun e => has_path p e && is_kind RegularFile e) added)
    with false; [apply orb_false_r|].
  symmetry. induction H as [|[q k] added [Hk _] _ IH]; simpl; [reflexivity|].
  simpl in Hk; subst k. rewrite IH. unfold is_kind; simpl.
  now rewrite andb_false_r.
Qed.

(** The directories made for the output add no row: the scan of the
    file system after [mkdir] gives the table of the one before. *)
Lemma scan_after_mkdir (fsys fs1 : FileSystem) (p input_dir : Path) :
  mkdir_parents fsys p = Ok fs1 ->
  fst (scan fs1 input_dir) = fst (scan fsys input_dir).
Proof.
  intros H. destruct (mkdir_rev_added _ _ _ H) as (added & -> & Hadded).
  rewrite !scan_rows. f_equal.
  unfold rglob. rewrite map_app, filter_app, flat_map_app.
  assert (Hc : forall q, contribution (fsys ++ added)%list input_dir q
                         = contribution fsys input_dir q).
  { intros q. unfold contribution, process_path, qualifies.
    now rewrite (@is_file_added fsys added q Hadded). }
  rewrite !(flat_map_ext _ _ Hc).
  match goal with
  | |- (_ ++ ?rows)%list = _ => assert (E : rows = [])
  end.
  { clear H Hc. induction Hadded as [|[q k] added [_ Hq] _ IH]; simpl;
      [reflexivity|].
    simpl in Hq. destruct (below input_dir q); [|exact IH].
    simpl. rewrite IH, app_nil_r.
    unfold contribution, process_path, qualifies.
    now rewrite (@is_file_absent fsys q Hq). }
  now rewrite E, app_nil_r.
Qed.

(** X3. The table a successful run writes is the sorted scan of the
    file system as it was before the run: the directories the run makes
    for its output, also inside the scanned tree, add no row. *)
Theorem table_of_initial_file_system (input_dir output_file : Path) (w w' : World) :
  process_directory input_dir output_file w = (Ok true, w') ->
  csv_files w'
    = (stamped output_file w,
       sort_values
         (flat_map (contribution (fs w) input_dir) (rglob (fs w) input_dir)))
      :: csv_files w.
Proof.
  intros Hrun.
  destruct (process_directory_true _ _ _ Hrun) as (fs1 & _ & Hmk & Hcsv).
  now rewrite Hcsv, (@scan_after_mkdir _ _ _ input_dir Hmk), scan_rows.
Qed.

Lemma table_of_initial_file_system_witness :
  csv_files sample_world_after
    = (stamped sample_out sample_world,
       sort_values
         (flat_map (contribution (fs sample_world) sample_in)
            (rglob (fs sample_world) sample_in)))
      :: csv_files sample_world.
Proof.
  apply (@table_of_initial_file_system sample_in sample_out
           sample_world sample_world_after).
  vm_compute. reflexivity.
Defined.

(** X4. A successful run prints one line and no other: the number of
    rows saved, which is the number of qualifying files under the root
    before the run, and the stamped output path. *)
Theorem success_line (input_dir output_file : Path) (w w' : World) :
  process_directory input_dir output_file w = (Ok true, w') ->
  stdout w'
    = (stdout w ++
       [("Successfully saved " ++ Str.of_nat (total_files (fs w) input_dir)
           ++ " images to " ++ Pathlib.str (stamped output_file w))%string])%list.
Proof.
  unfold process_directory.
  destruct (path_exists (fs w) input_dir); cbn [negb]; [|discriminate].
  destruct (mkdir_parents (fs w) _) as [fs1|e] eqn:Hmk; [|discriminate].
  unfold to_csv. cbn [fs print_all set_fs].
  destruct (is_dir fs1 _); [discriminate|].
  intros E. apply (f_equal snd) in E. cbn [snd] in E. rewrite <- E.
  cbn [stdout print print_all set_fs].
  rewrite scan_prints_nothing, app_nil_r.
  rewrite (@scan_after_mkdir _ _ _ input_dir Hmk), scan_rows.
  rewrite (Permutation_length (sort_values_perm _)).
  now rewrite (@flat_map_contribution_length (fs w) input_dir _
                 (rglob_all_below (fs w) input_dir)).
Qed.

Lemma success_line_witness :
  stdout sample_world_after
    = ["Successfully saved 4 images to out/camera_trap_images_20240102_030405.csv"].
Proof.
  apply (@success_line sample_in sample_out sample_world sample_world_after).
  vm_compute. reflexivity.
Defined.

(** X5. [main] exits with status 0 or 1: with 0 after it has written
    one table, at the stamped path; with 1 without having written any. *)
Theorem main_exit_status (input_dir output_file : Path) (w : World) :
  (fst (main input_dir output_file w) = 0 /\
   csv_files (snd (main input_dir output_file w))
     = (stamped output_file w, fst (scan (fs w) input_dir)) :: csv_files w)
  \/
  (fst (main input_dir output_file w) = 1 /\
   csv_files (snd (main input_dir output_file w)) = csv_files w).
Proof.
  unfold main.
  destruct (process_directory input_dir output_file w) as [[[|]|e] w'] eqn:Hrun.
  - left. split; [reflexivity|]. simpl.
    destruct (process_directory_true _ _ _ Hrun) as (fs1 & _ & Hmk & Hcsv).
    now rewrite Hcsv, (@scan_after_mkdir _ _ _ input_dir Hmk).
  - right. split; [reflexivity|]. simpl.
    unfold process_directory in Hrun.
    destruct (path_exists (fs w) input_dir); simpl in Hrun.
    + destruct (mkdir_parents (fs w) _); [|discriminate].
      unfold to_csv in Hrun; simpl in Hrun.
      destruct (is_dir _ _); discriminate.
    + inversion Hrun; subst. reflexivity.
  - right. split; [reflexivity|]. simpl.
    unfold process_directory in Hrun.
    destruct (path_exists (fs w) input_dir); simpl in Hrun; [|discriminate].
    destruct (mkdir_parents (fs w) _); [|inversion Hrun; subst; reflexivity].
    unfold to_csv in Hrun; simpl in Hrun.
    destruct (is_dir _ _); inversion Hrun; subst; reflexivity.
Qed.

(** X6. Whatever its outcome, [main] leaves every entry of the file
    system in place: it only adds entries, which are directories and the
    stamped output file. *)
Theorem main_only_adds (input_dir output_file : Path) (w : World) :
  exists added,
    fs (snd (main input_dir output_file w)) = (fs w ++ added)%list /\
    Forall (fun e => snd e = Directory \/ e = (stamped output_file w, RegularFile))
      added.
Proof.
  assert (Hweak : forall added,
    Forall (fun e : Entry => snd e = Directory /\ path_exists (fs w) (fst e) = false)
      added ->
    Forall (fun e => snd e = Directory \/ e = (stamped output_file w, RegularFile))
      added).
  { intros added H. eapply Forall_impl; [|exact H]. intros e [He _]. now left. }
  unfold main, process_directory.
  destruct (path_exists (fs w) input_dir); simpl.
  2:{ exists []. now rewrite app_nil_r. }
  destruct (mkdir_parents (fs w) _) as [fs1|e] eqn:Hmk; simpl.
  2:{ exists []. now rewrite app_nil_r. }
  destruct (mkdir_rev_added _ _ _ Hmk) as (added & -> & Hadded).
  unfold to_csv; simpl.
  destruct (is_dir (fs w ++ added)%list _); simpl.
  { exists added. auto. }
  destruct (path_exists (fs w ++ added)%list _); simpl.
  { exists added. auto. }
  exists (added ++ [(stamped output_file w, RegularFile)])%list.
  split; [now rewrite app_assoc|].
  apply Forall_app. split; [auto|]. constructor; [now right | constructor].
Qed.

(** ** The fields of a row *)

Lemma last_default (A : Type) (l : list A) (x d : A) :
  last (x :: l) d = last l x.
Proof.
  revert x d. induction l as [|y l IH]; intros x d; [reflexivity|].
  change (last (x :: y :: l) d) with (last (y :: l) d).
  now rewrite (IH y d), (IH y x).
Qed.

Lemma last_app_default (A : Type) (l l' : list A) (d : A) :
  last (l ++ l') d = last l' (last l d).
Proof.
  revert d. induction l as [|x l IH]; intros d; [reflexivity|].
  rewrite <- app_comm_cons, !last_default. apply IH.
Qed.

(** The row of a path written as the root followed by [x :: rest]. *)
Lemma derive_fields_under (input_dir : Path) (x : string) (rest : list string) :
  let file_path := mkPath (anchor input_dir) (names input_dir ++ x :: rest) in
  exists id,
    format_image_id file_path x = Ok id /\
    derive_fields input_dir file_path =
      Ok (mkRow id (Pathlib.str (Pathlib.parent (mkPath "" (x :: rest))))
            (extract_camera_number file_path) (species_of file_path)
            (Pathlib.name (Pathlib.parent file_path))).
Proof.
  intros file_path.
  destruct (format_image_id_total file_path x) as [id Hid].
  exists id. split; [exact Hid|].
  unfold derive_fields, Pathlib.relative_to. subst file_path. cbn [anchor names].
  rewrite String.eqb_refl.
  rewrite (proj2 (strip_prefix_app (names input_dir)
                    (names input_dir ++ x :: rest) (x :: rest)) eq_refl).
  cbn [rbind]. unfold camera_id_of at 1. cbn [Pathlib.parts anchor names].
  now rewrite Hid.
Qed.

(** X7. For a file under the root, Location is the directories between
    the root and the file joined by ['/'], or ['.'] when there is none,
    and Count is the name of the directory that holds the file: the
    root's own name for a file directly in the root. *)
Theorem location_and_count (input_dir : Path) (dirs : list string) (f : string) :
  exists row,
    derive_fields input_dir
      (mkPath (anchor input_dir) (names input_dir ++ dirs ++ [f])) = Ok row /\
    location row = match dirs with
                   | [] => "."
                   | _ => String.concat "/" dirs
                   end /\
    count row = last dirs (Pathlib.name input_dir).
Proof.
  assert (Hshape : exists x rest, (dirs ++ [f])%list = x :: rest).
  { destruct dirs as [|d dirs]; simpl; eauto. }
  destruct Hshape as (x & rest & Hshape). rewrite Hshape.
  destruct (derive_fields_under input_dir x rest) as (id & _ & Hrow).
  eexists. split; [exact Hrow|]. cbn [location count].
  rewrite <- Hshape. split.
  - unfold Pathlib.parent. cbn [anchor names]. rewrite removelast_last.
    unfold Pathlib.str. cbn [anchor names]. destruct dirs; reflexivity.
  - unfold Pathlib.name, Pathlib.parent. cbn [anchor names].
    rewrite app_assoc, removelast_last. apply last_app_default.
Qed.

(** X8. For a file three directories or more under the root, with the
    last three named [cam], [sp] and [cnt]: Camera is [cam], Species is
    [sp], Count is [cnt], Location is the whole chain of directories,
    and the camera id used in the identifier is the first directory
    under the root, which is [cam] only when there are exactly three. *)
Theorem deep_file_row (input_dir : Path) (pre : list string)
    (cam sp cnt f : string) :
  let file_path :=
    mkPath (anchor input_dir) (names input_dir ++ pre ++ [cam; sp; cnt; f]) in
  exists row,
    derive_fields input_dir file_path = Ok row /\
    camera row = cam /\ species row = sp /\ count row = cnt /\
    location row = String.concat "/" (pre ++ [cam; sp; cnt]) /\
    format_image_id file_path (hd cam pre) = Ok (image_id row).
Proof.
  intros file_path.
  assert (Hshape : exists rest,
            (pre ++ [cam; sp; cnt; f])%list = hd cam pre :: rest).
  { destruct pre as [|d pre]; simpl; eauto. }
  destruct Hshape as (rest & Hshape).
  subst file_path. rewrite Hshape.
  destruct (derive_fields_under input_dir (hd cam pre) rest) as (id & Hid & Hrow).
  eexists. split; [exact Hrow|]. cbn [camera species count location image_id].
  rewrite <- Hshape. repeat split.
  - rewrite app_assoc. apply camera_of_deep_file.
  - replace (names input_dir ++ pre ++ [cam; sp; cnt; f])%list
      with ((names input_dir ++ pre ++ [cam]) ++ [sp; cnt; f])%list
      by (now rewrite <- !app_assoc).
    apply species_of_deep_file.
  - unfold Pathlib.name, Pathlib.parent. cbn [anchor names].
    replace (names input_dir ++ pre ++ [cam; sp; cnt; f])%list
      with ((names input_dir ++ pre ++ [cam; sp; cnt]) ++ [f])%list
      by (now rewrite <- !app_assoc).
    rewrite removelast_last.
    replace (names input_dir ++ pre ++ [cam; sp; cnt])%list
      with ((names input_dir ++ pre ++ [cam; sp]) ++ [cnt])%list
      by (now rewrite <- !app_assoc).
    apply last_last.
  - unfold Pathlib.parent. cbn [anchor names].
    replace (pre ++ [cam; sp; cnt; f])%list
      with ((pre ++ [cam; sp; cnt]) ++ [f])%list
      by (now rewrite <- !app_assoc).
    rewrite removelast_last. unfold Pathlib.str. cbn [anchor names].
    destruct pre; reflexivity.
  - rewrite Hshape. exact Hid.
Qed.

(** ** More on the identifier *)

Lemma has_space_String (ch : ascii) (s : string) :
  Str.has_space (String ch s) = Str.is_space ch || Str.has_space s.
Proof. reflexivity. Qed.

(** X9. A normalized identifier holds no whitespace when the camera id
    holds none: the six tokens are runs without whitespace and the
    separators are ['_'] and ['-']. *)
Theorem image_id_no_whitespace (file_path : Path) (camera_id id : string) :
  6 <= List.length (Str.split (Pathlib.stem file_path)) ->
  Str.has_space camera_id = false ->
  format_image_id file_path camera_id = Ok id ->
  Str.has_space id = false.
Proof.
  intros Hlen Hcam. unfold format_image_id.
  assert (Htok := split_tokens (Pathlib.stem file_path)).
  destruct (firstn_six _ Hlen) as (a & b & c & d & e & f & rest & Heq).
  rewrite Heq in Htok |- *.
  repeat match goal with
         | H : Forall _ (_ :: _) |- _ => inversion H; clear H; subst
         end.
  repeat match goal with
         | H : _ <> "" /\ _ |- _ => destruct H as [_ H]
         end.
  cbn [List.length Nat.leb firstn].
  intros E. inversion E; subst. clear E.
  repeat (rewrite ?has_space_append, ?has_space_String).
  repeat match goal with
         | H : Str.has_space _ = false |- _ => rewrite H; clear H
         end.
  reflexivity.
Qed.

Lemma image_id_no_whitespace_witness :
  Str.has_space "CamA_2020-01-15_08-30-00_JPEG" = false.
Proof.
  apply (@image_id_no_whitespace
           (rel ["data"; "CamA"; "Fox"; "3"; "2020 01 15 08 30 00.JPG"])
           "CamA" "CamA_2020-01-15_08-30-00_JPEG").
  - vm_compute. lia.
  - reflexivity.
  - reflexivity.
Defined.

(** X10. The identifier depends on the file name through its first six
    tokens only: two files whose stems start with the same six tokens
    get the same identifier under one camera id, whatever their
    extensions, the whitespace between the tokens and what follows the
    sixth. *)
Theorem image_id_first_six_tokens (p q : Path) (camera_id : string) :
  6 <= List.length (Str.split (Pathlib.stem p)) ->
  firstn 6 (Str.split (Pathlib.stem p)) = firstn 6 (Str.split (Pathlib.stem q)) ->
  format_image_id p camera_id = format_image_id q camera_id.
Proof.
  intros Hp Heq.
  assert (Hq : 6 <= List.length (Str.split (Pathlib.stem q))).
  { apply (f_equal (@List.length string)) in Heq.
    rewrite !length_firstn in Heq. lia. }
  unfold format_image_id. rewrite <- Heq.
  destruct (Nat.leb_spec 6 (List.length (Str.split (Pathlib.stem p)))); [|lia].
  destruct (Nat.leb_spec 6 (List.length (Str.split (Pathlib.stem q)))); [|lia].
  reflexivity.
Qed.

Lemma image_id_first_six_tokens_witness :
  format_image_id (rel ["CamA"; "2020 01 15 08 30 00.jpg"]) "CamA"
  = format_image_id (rel ["CamA"; "2020  01 15 08 30 00 copy.jpeg"]) "CamA".
Proof.
  apply (@image_id_first_six_tokens
           (rel ["CamA"; "2020 01 15 08 30 00.jpg"])
           (rel ["CamA"; "2020  01 15 08 30 00 copy.jpeg"]) "CamA").
  - vm_compute. lia.
  - reflexivity.
Defined.

(** ** The filter *)

Lemma lower_char_dot (c : ascii) : Str.lower_char c = "."%char -> c = "."%char.
Proof.
  destruct c as [[] [] [] [] [] [] [] []]; vm_compute; intros H;
    first [reflexivity | discriminate H].
Qed.

Lemma rfind_dot_lower (e : string) :
  Str.rfind_dot (Str.lower e) = None -> Str.rfind_dot e = None.
Proof.
  induction e as [|c e IH]; simpl; [reflexivity|].
  destruct (Str.rfind_dot (Str.lower e)); [discriminate|].
  rewrite (IH eq_refl).
  destruct (Ascii.eqb_spec (Str.lower_char c) "."%char); [discriminate|].
  intros _. destruct (Ascii.eqb_spec c "."%char) as [->|]; [|reflexivity].
  exfalso. auto.
Qed.

Lemma startswith_dot_append (s t : string) :
  s <> "" -> Str.startswith (s ++ t) "." = Str.startswith s ".".
Proof.
  intros Hs. destruct s as [|c s]; [congruence|].
  unfold Str.startswith. change (String c s ++ t) with (String c (s ++ t)).
  assert (P : forall u, String.prefix "" u = true) by (intros [|]; reflexivity).
  cbn [String.prefix]. destruct (ascii_dec "." c); [now rewrite !P | reflexivity].
Qed.

(** X11. A path passes the filter exactly when it is a regular file
    whose name is [s.e] with [s] not empty and not starting with a dot
    and [e] equal to [jpg] or [jpeg] once in lower case: only the last
    extension counts, in any case, and the directories do not matter. *)
Theorem qualifies_iff (fsys : FileSystem) (p : Path) :
  qualifies fsys p = true <->
  is_file fsys p = true /\
  exists s e,
    Pathlib.name p = s ++ String "." e /\
    s <> "" /\ Str.startswith s "." = false /\
    (Str.lower e = "jpg" \/ Str.lower e = "jpeg").
Proof.
  unfold qualifies. rewrite !andb_true_iff, negb_true_iff. split.
  - intros [[Hfile Hhid] Hext]. split; [exact Hfile|].
    unfold Pathlib.suffix in Hext.
    destruct (split_name_inv (Pathlib.name p))
      as [Hname [Hempty|(b & Hb & Hne & Hdot & Hstem)]].
    { rewrite Hempty in Hext. discriminate. }
    exists (fst (Pathlib.split_name (Pathlib.name p))), b.
    rewrite Hb in Hname, Hext.
    repeat split; auto.
    + rewrite Hname in Hhid. now rewrite startswith_dot_append in Hhid.
    + unfold Str.mem in Hext. simpl in Hext.
      rewrite !orb_true_iff in Hext. destruct Hext as [H|[H|H]]; try discriminate.
      * apply String.eqb_eq in H. inversion H. now left.
      * apply String.eqb_eq in H. inversion H. now right.
  - intros [Hfile (s & e & Hname & Hs & Hhid & Hext)].
    assert (Hdot : Str.rfind_dot e = None).
    { apply rfind_dot_lower. destruct Hext as [->| ->]; reflexivity. }
    assert (He : e <> "").
    { intros ->. destruct Hext; discriminate. }
    repeat split; auto.
    + rewrite Hname. now rewrite startswith_dot_append.
    + unfold Pathlib.suffix. rewrite Hname, (split_name_dot Hs He Hdot).
      simpl. destruct Hext as [->| ->]; reflexivity.
Qed.

Lemma qualifies_iff_witness :
  qualifies sample_fs
    (rel ["data"; "CamA"; "Fox"; "3"; "2020 01 15 08 30 00.JPG"]) = true.
Proof.
  apply (proj2 (qualifies_iff sample_fs
                  (rel ["data"; "CamA"; "Fox"; "3"; "2020 01 15 08 30 00.JPG"]))).
  split; [reflexivity|].
  exists "2020 01 15 08 30 00", "JPG". repeat split.
  - discriminate.
  - now left.
Defined.

Lemma stamped_parent (output_file : Path) (w : World) :
  Pathlib.parent (stamped output_file w) = Pathlib.parent output_file.
Proof.
  unfold stamped, Pathlib.parent, Pathlib.joinpath, get_output_filename.
  simpl. now rewrite removelast_last.
Qed.

(** ** An output directory that cannot be made *)

Lemma mkdir_rev_blocked (fsys : FileSystem) (a : string) (rnames : list string) :
  path_exists fsys (mkPath a (List.rev rnames)) = true ->
  is_dir fsys (mkPath a (List.rev rnames)) = false ->
  mkdir_rev fsys a rnames = Raise (FileExistsError (mkPath a (List.rev rnames))).
Proof.
  intros He Hd. destruct rnames as [|x rparent].
  - simpl in Hd. discriminate.
  - cbn [mkdir_rev]. now rewrite He, Hd.
Qed.

(** X12. When the root exists and the directory asked for the output
    exists but is not a directory, the run stops before any file is
    scanned: [main] prints the error of [mkdir], exits with status 1,
    and changes nothing else. *)
Theorem output_directory_blocked (input_dir output_file : Path) (w : World) :
  path_exists (fs w) input_dir = true ->
  path_exists (fs w) (Pathlib.parent output_file) = true ->
  is_dir (fs w) (Pathlib.parent output_file) = false ->
  main input_dir output_file w
    = (1, print ("An error occurred: "
                   ++ str_exn (FileExistsError (Pathlib.parent output_file))) w).
Proof.
  intros Hroot He Hd. unfold main, process_directory.
  rewrite Hroot. cbn [negb]. rewrite stamped_parent. unfold mkdir_parents.
  set (P := Pathlib.parent output_file) in *.
  assert (Hp : mkPath (anchor P) (List.rev (List.rev (names P))) = P).
  { rewrite rev_involutive. now destruct P. }
  rewrite (@mkdir_rev_blocked (fs w) (anchor P) (List.rev (names P)));
    rewrite Hp; auto.
Qed.

Lemma output_directory_blocked_witness :
  main sample_in sample_out blocked_world
    = (1, print "An error occurred: [Errno 17] File exists: 'out'" blocked_world).
Proof.
  apply (@output_directory_blocked sample_in sample_out blocked_world);
    reflexivity.
Defined.
